(** * Diabetes risk predictor: feature encoder and model invoker

    A shallow embedding of [app.py].  The form widgets of [main] are read
    from a session (the widget state Streamlit keeps between reruns), the
    nineteen widget results are assembled into [feature_list], and [predict]
    hands that list to a pickled classifier which [load_model] loads through
    a process-wide resource cache. *)

From Stdlib Require Import ZArith List Bool String Lia.
From Stdlib Require Import Floats.SpecFloat.
Import ListNotations.

Local Open Scope Z_scope.

(** ** Python values *)

Module Py.

(** Python floats are IEEE binary64 numbers. *)
Definition prec : Z := 53.
Definition emax : Z := 1024.

Definition float : Type := spec_float.

(** The float denoted by an integral literal such as [25.0]. *)
Definition float_of_Z (z : Z) : float := binary_normalize prec emax z 0 false.

Definition fleb (x y : float) : bool := SFleb x y.

(** The values the widgets hand out: floats and ints stay distinct, as
    they do at run time. *)
Inductive value : Type :=
| VFloat (x : float)
| VInt (n : Z).

Definition is_float (v : value) : bool :=
  match v with VFloat _ => true | VInt _ => false end.

(** [range(a, b)] as a list. *)
Definition range (a b : Z) : list Z :=
  map (fun k => a + Z.of_nat k) (seq 0 (Z.to_nat (b - a))).

(** Exceptions that matter to the program. *)
Inductive exn : Type :=
| FileNotFoundError
| PermissionError
| UnpicklingError
| EOFError
| IndexError
| ValueError.

(** Outcome of a call: a returned value or a raised exception. *)
Inductive result (A : Type) : Type :=
| Ret (a : A)
| Raise (e : exn).
Arguments Ret {A} a.
Arguments Raise {A} e.

Definition bind {A B} (r : result A) (k : A -> result B) : result B :=
  match r with
  | Ret a => k a
  | Raise e => Raise e
  end.

(** [xs[0]] *)
Definition index0 {A} (xs : list A) : result A :=
  match xs with
  | x :: _ => Ret x
  | [] => Raise IndexError
  end.

End Py.

Import Py.

Definition f0_0 : float := float_of_Z 0.
Definition f1_0 : float := float_of_Z 1.
Definition f18_0 : float := float_of_Z 18.
Definition f25_0 : float := float_of_Z 25.
Definition f50_0 : float := float_of_Z 50.

(** ** Streamlit widgets

    A widget returns a value of its declared domain only; a state outside
    the domain yields no value. *)

Module St.

(** [st.selectbox(label, options)]: the state is the index of the chosen
    option. *)
Definition selectbox {A} (options : list A) (index : nat) : option A :=
  nth_error options index.

(** [st.select_slider(label, options)]: likewise, one of the options. *)
Definition select_slider {A} (options : list A) (index : nat) : option A :=
  nth_error options index.

(** [st.slider(label, min_value, max_value)] with int bounds. *)
Definition slider (min_value max_value : Z) (x : Z) : option Z :=
  if (min_value <=? x) && (x <=? max_value) then Some x else None.

(** [st.number_input(label, min_value, max_value)] with float bounds. *)
Definition number_input (min_value max_value : float) (x : float)
  : option float :=
  if fleb min_value x && fleb x max_value then Some x else None.

End St.

(** ** The form of [main] *)

(** The state of the nineteen widgets. *)
Record Session : Type := mkSession {
  s_bmi : float;
  s_high_bp : nat;
  s_high_chol : nat;
  s_chol_check : nat;
  s_stroke : nat;
  s_heart_disease : nat;
  s_phys_activity : nat;
  s_fruits : nat;
  s_veggies : nat;
  s_smoker : nat;
  s_alcohol : nat;
  s_diff_walk : nat;
  s_sex : nat;
  s_age : nat;
  s_education : nat;
  s_income : nat;
  s_gen_health : nat;
  s_mental_health : Z;
  s_phys_health : Z
}.

Definition yes_no : list (string * float) :=
  [("No"%string, f0_0); ("Yes"%string, f1_0)].

Definition female_male : list (string * float) :=
  [("Female"%string, f0_0); ("Male"%string, f1_0)].

(** [st.selectbox(..., options=...)[1]] *)
Definition choice (options : list (string * float)) (index : nat)
  : option value :=
  option_map (fun o => VFloat (snd o)) (St.selectbox options index).

Definition bmi (s : Session) : option value :=
  option_map VFloat (St.number_input f18_0 f50_0 (s_bmi s)).

Definition high_bp (s : Session) := choice yes_no (s_high_bp s).
Definition high_chol (s : Session) := choice yes_no (s_high_chol s).
Definition chol_check (s : Session) := choice yes_no (s_chol_check s).
Definition stroke (s : Session) := choice yes_no (s_stroke s).
Definition heart_disease (s : Session) := choice yes_no (s_heart_disease s).
Definition phys_activity (s : Session) := choice yes_no (s_phys_activity s).
Definition fruits (s : Session) := choice yes_no (s_fruits s).
Definition veggies (s : Session) := choice yes_no (s_veggies s).
Definition smoker (s : Session) := choice yes_no (s_smoker s).
Definition alcohol (s : Session) := choice yes_no (s_alcohol s).
Definition diff_walk (s : Session) := choice yes_no (s_diff_walk s).
Definition sex (s : Session) := choice female_male (s_sex s).

Definition age (s : Session) : option value :=
  option_map VInt (St.select_slider (range 1 14) (s_age s)).

Definition education (s : Session) : option value :=
  option_map VInt (St.select_slider (range 1 7) (s_education s)).

Definition income (s : Session) : option value :=
  option_map VInt (St.select_slider (range 1 9) (s_income s)).

Definition gen_health_options : list float :=
  map float_of_Z [1; 2; 3; 4; 5].

Definition gen_health (s : Session) : option value :=
  option_map VFloat (St.select_slider gen_health_options (s_gen_health s)).

Definition mental_health (s : Session) : option value :=
  option_map VInt (St.slider 0 30 (s_mental_health s)).

Definition phys_health (s : Session) : option value :=
  option_map VInt (St.slider 0 30 (s_phys_health s)).

(** All widgets must have produced a value before the list is built. *)
Fixpoint sequence {A} (xs : list (option A)) : option (list A) :=
  match xs with
  | [] => Some []
  | Some x :: r => option_map (cons x) (sequence r)
  | None :: _ => None
  end.

(** The list literal bound to [feature_list] in [main]. *)
Definition feature_list (s : Session) : option (list value) :=
  sequence
    [ high_bp s; high_chol s; chol_check s; bmi s; smoker s; stroke s;
      heart_disease s; phys_activity s; fruits s; veggies s; alcohol s;
      gen_health s; mental_health s; phys_health s; diff_walk s; sex s;
      age s; education s; income s ].

(** The session of a freshly opened page: every widget at its default. *)
Definition default_session : Session :=
  mkSession f25_0 0 0 0 0 0 0 0 0 0 0 0 0 0 0 0 2 0 0.

(** The domains the widgets enforce, as one decidable test. *)
Definition valid_session (s : Session) : bool :=
  fleb f18_0 (s_bmi s) && fleb (s_bmi s) f50_0
  && (s_high_bp s <? 2)%nat && (s_high_chol s <? 2)%nat
  && (s_chol_check s <? 2)%nat && (s_stroke s <? 2)%nat
  && (s_heart_disease s <? 2)%nat && (s_phys_activity s <? 2)%nat
  && (s_fruits s <? 2)%nat && (s_veggies s <? 2)%nat
  && (s_smoker s <? 2)%nat && (s_alcohol s <? 2)%nat
  && (s_diff_walk s <? 2)%nat && (s_sex s <? 2)%nat
  && (s_age s <? 13)%nat && (s_education s <? 6)%nat
  && (s_income s <? 8)%nat && (s_gen_health s <? 5)%nat
  && (0 <=? s_mental_health s) && (s_mental_health s <=? 30)
  && (0 <=? s_phys_health s) && (s_phys_health s <=? 30).

(** ** The documented feature contract *)

(** The nineteen features of the model contract, by their documented
    names. *)
Inductive Feature : Type :=
| HighBP | HighChol | CholCheck | BMI | Smoker | Stroke
| HeartDiseaseOrAttack | PhysActivity | Fruits | Veggies
| HvyAlcoholConsump | GenHealth | MentHlth | PhysHlth | DiffWalk
| Sex | Age | Education | Income.

(** The documented position of each feature, counted from 1. *)
Definition position (f : Feature) : nat :=
  match f with
  | HighBP => 1 | HighChol => 2 | CholCheck => 3 | BMI => 4
  | Smoker => 5 | Stroke => 6 | HeartDiseaseOrAttack => 7
  | PhysActivity => 8 | Fruits => 9 | Veggies => 10
  | HvyAlcoholConsump => 11 | GenHealth => 12 | MentHlth => 13
  | PhysHlth => 14 | DiffWalk => 15 | Sex => 16 | Age => 17
  | Education => 18 | Income => 19
  end%nat.

(** The documented two-way fields. *)
Definition binary (f : Feature) : bool :=
  match f with
  | HighBP | HighChol | CholCheck | Stroke | HeartDiseaseOrAttack
  | PhysActivity | Fruits | Veggies | Smoker | HvyAlcoholConsump
  | DiffWalk | Sex => true
  | _ => false
  end.

(** The widget of the form that collects a feature. *)
Definition widget (f : Feature) : Session -> option value :=
  match f with
  | HighBP => high_bp
  | HighChol => high_chol
  | CholCheck => chol_check
  | BMI => bmi
  | Smoker => smoker
  | Stroke => stroke
  | HeartDiseaseOrAttack => heart_disease
  | PhysActivity => phys_activity
  | Fruits => fruits
  | Veggies => veggies
  | HvyAlcoholConsump => alcohol
  | GenHealth => gen_health
  | MentHlth => mental_health
  | PhysHlth => phys_health
  | DiffWalk => diff_walk
  | Sex => sex
  | Age => age
  | Education => education
  | Income => income
  end.

(** What the user set on a widget, before any encoding. *)
Inductive selection : Type :=
| Typed (x : float)
| Picked (index : nat)
| Slid (n : Z).

Definition selected (f : Feature) (s : Session) : selection :=
  match f with
  | HighBP => Picked (s_high_bp s)
  | HighChol => Picked (s_high_chol s)
  | CholCheck => Picked (s_chol_check s)
  | BMI => Typed (s_bmi s)
  | Smoker => Picked (s_smoker s)
  | Stroke => Picked (s_stroke s)
  | HeartDiseaseOrAttack => Picked (s_heart_disease s)
  | PhysActivity => Picked (s_phys_activity s)
  | Fruits => Picked (s_fruits s)
  | Veggies => Picked (s_veggies s)
  | HvyAlcoholConsump => Picked (s_alcohol s)
  | GenHealth => Picked (s_gen_health s)
  | MentHlth => Slid (s_mental_health s)
  | PhysHlth => Slid (s_phys_health s)
  | DiffWalk => Picked (s_diff_walk s)
  | Sex => Picked (s_sex s)
  | Age => Picked (s_age s)
  | Education => Picked (s_education s)
  | Income => Picked (s_income s)
  end.

(** ** The model invoker *)

Module Invoker.

(** The unpickled classifier is opaque: all the program uses is its
    [predict] method.  The first argument counts the earlier calls made
    on the object, so that a model with internal state or randomness is
    covered too. *)
Record Model : Type := mkModel {
  m_predict : nat -> list (list value) -> result (list value)
}.

Definition deterministic (m : Model) : Prop :=
  forall i j batch, m_predict m i batch = m_predict m j batch.

(** What is found at ["predictor.pickle"] when it is opened. *)
Inductive Artifact : Type :=
| Absent                    (* [open] raises FileNotFoundError *)
| Unreadable (e : exn)      (* [open] raises [e] *)
| Corrupt (e : exn)         (* [pickle.load] raises [e] *)
| Pickled (m : Model).      (* [pickle.load] returns [m] *)

(** The steps the body of [load_model] takes, with their outcome. *)
Inductive event : Type :=
| EvOpen (ok : bool)        (* [open] returned, or raised *)
| EvUnpickle (ok : bool)    (* [pickle.load] returned, or raised *)
| EvError.                  (* the handler called [st.error] *)

(** The process: the [st.cache_resource] entry of [load_model] (absent,
    or the cached return value), the number of inference calls made so
    far, and the steps taken by the loads so far, latest first. *)
Record Process : Type := mkProcess {
  cache : option (option Model);
  calls : nat;
  log : list event
}.

Definition init : Process := mkProcess None 0 [].

(** [except FileNotFoundError] *)
Definition caught (e : exn) : bool :=
  match e with FileNotFoundError => true | _ => false end.

Definition handler (e : exn) (evs : list event)
  : result (option Model) * list event :=
  if caught e then (Ret None, EvError :: evs) else (Raise e, evs).

(** The body of [load_model]: what runs on a cache miss. *)
Definition load_model_body (a : Artifact)
  : result (option Model) * list event :=
  match a with
  | Absent => handler FileNotFoundError [EvOpen false]
  | Unreadable e => handler e [EvOpen false]
  | Corrupt e => handler e [EvUnpickle false; EvOpen true]
  | Pickled m => (Ret (Some m), [EvUnpickle true; EvOpen true])
  end.

(** [load_model] under [@st.cache_resource]: a hit returns the cached
    value without running the body; a miss runs it and caches what it
    returns, while a raised exception caches nothing. *)
Definition load_model (a : Artifact) (p : Process)
  : result (option Model) * Process :=
  match cache p with
  | Some r => (Ret r, p)
  | None =>
      let (r, evs) := load_model_body a in
      match r with
      | Ret x => (Ret x, mkProcess (Some x) (calls p) (evs ++ log p))
      | Raise e => (Raise e, mkProcess None (calls p) (evs ++ log p))
      end
  end.

Definition predict (a : Artifact) (feature_list : list value) (p : Process)
  : result (option value) * Process :=
  let (r, p1) := load_model a p in
  match r with
  | Raise e => (Raise e, p1)
  | Ret None => (Ret None, p1)
  | Ret (Some model) =>
      (bind (m_predict model (calls p1) [feature_list])
            (fun ys => bind (index0 ys) (fun y => Ret (Some y))),
       mkProcess (cache p1) (S (calls p1)) (log p1))
  end.

(** The three states of the invoker. *)
Inductive State : Type :=
| Unloaded
| Loaded (m : Model)
| LoadFailed.

Definition state (p : Process) : State :=
  match cache p with
  | None => Unloaded
  | Some (Some m) => Loaded m
  | Some None => LoadFailed
  end.

(** A sequence of submissions, each meeting the artifact as it is at
    that moment. *)
Fixpoint run (subs : list (Artifact * list value)) (p : Process)
  : list (result (option value)) * Process :=
  match subs with
  | [] => ([], p)
  | (a, v) :: rest =>
      let (r, p1) := predict a v p in
      let (rs, p2) := run rest p1 in
      (r :: rs, p2)
  end.

Definition is_unpickled (e : event) : bool :=
  match e with EvUnpickle true => true | _ => false end.

(** How many times an artifact has been deserialized. *)
Definition deserializations (p : Process) : nat :=
  List.length (filter is_unpickled (log p)).

(** The artifact cannot be loaded: it is missing or unreadable. *)
Definition unavailable (a : Artifact) : bool :=
  match a with Pickled _ => false | _ => true end.

End Invoker.

Import Invoker.

(** ** The button branch of [main] *)

Inductive notice : Type :=
| Results
| HigherRisk
| LowerRisk
| ImportantNotice.

(** [prediction_result == 1] *)
Definition equals_one (y : value) : bool :=
  match y with
  | VInt n => n =? 1
  | VFloat x => SFeqb x f1_0
  end.

(** What is shown once the button is pressed. *)
Definition assess (a : Artifact) (s : Session) (p : Process)
  : option (result (list notice) * Process) :=
  match feature_list s with
  | None => None
  | Some fl =>
      let (r, p1) := predict a fl p in
      Some (match r with
            | Raise e => Raise e
            | Ret None => Ret []
            | Ret (Some y) =>
                Ret [Results;
                     if equals_one y then HigherRisk else LowerRisk;
                     ImportantNotice]
            end, p1)
  end.

(** * Properties *)

(** ** Assembling the list *)

Section Sequence.

Context {A : Type}.

Lemma sequence_length (xs : list (option A)) (v : list A) :
  sequence xs = Some v -> List.length v = List.length xs.
Proof.
  revert v; induction xs as [|[x|] r IH]; simpl; intros v H.
  - now inversion H.
  - destruct (sequence r) as [w|]; simpl in H; inversion H; subst.
    simpl; f_equal; now apply IH.
  - discriminate.
Qed.

Lemma sequence_nth (xs : list (option A)) (v : list A) (i : nat) :
  sequence xs = Some v ->
  (i < List.length xs)%nat ->
  nth_error xs i = Some (nth_error v i).
Proof.
  revert v i; induction xs as [|[x|] r IH]; simpl; intros v i H Hi.
  - lia.
  - destruct (sequence r) as [w|]; simpl in H; inversion H; subst.
    destruct i as [|i]; simpl; [reflexivity|].
    apply IH; [reflexivity | lia].
  - discriminate.
Qed.

Lemma sequence_all (xs : list (option A)) :
  (forall x, In x xs -> x <> None) -> sequence xs <> None.
Proof.
  induction xs as [|[x|] r IH]; simpl; intros H.
  - discriminate.
  - destruct (sequence r) eqn:E; simpl; [discriminate|].
    exfalso; apply IH; [|reflexivity].
    intros y Hy; apply H; now right.
  - exfalso; apply (H None); [now left | reflexivity].
Qed.

End Sequence.

(** The widgets in the order of the list literal. *)
Definition widgets (s : Session) : list (option value) :=
  [ high_bp s; high_chol s; chol_check s; bmi s; smoker s; stroke s;
    heart_disease s; phys_activity s; fruits s; veggies s; alcohol s;
    gen_health s; mental_health s; phys_health s; diff_walk s; sex s;
    age s; education s; income s ].

Lemma feature_list_widgets (s : Session) :
  feature_list s = sequence (widgets s).
Proof. reflexivity. Qed.

Lemma widgets_position (f : Feature) (s : Session) :
  nth_error (widgets s) (pred (position f)) = Some (widget f s).
Proof. destruct f; reflexivity. Qed.

Lemma position_range (f : Feature) : (1 <= position f <= 19)%nat.
Proof. destruct f; simpl; lia. Qed.

Lemma position_inj (f g : Feature) : position f = position g -> f = g.
Proof. destruct f, g; simpl; intros H; try reflexivity; discriminate. Qed.

Lemma position_onto (i : nat) :
  (i < 19)%nat -> exists f, pred (position f) = i.
Proof.
  intros H.
  do 19 (destruct i as [|i];
         [ first [ now exists HighBP | now exists HighChol
                 | now exists CholCheck | now exists BMI | now exists Smoker
                 | now exists Stroke | now exists HeartDiseaseOrAttack
                 | now exists PhysActivity | now exists Fruits
                 | now exists Veggies | now exists HvyAlcoholConsump
                 | now exists GenHealth | now exists MentHlth
                 | now exists PhysHlth | now exists DiffWalk | now exists Sex
                 | now exists Age | now exists Education
                 | now exists Income ] | ]).
  lia.
Qed.

Lemma feature_list_length (s : Session) (v : list value) :
  feature_list s = Some v -> List.length v = 19%nat.
Proof. intros H. now apply sequence_length in H. Qed.

Lemma feature_list_position (s : Session) (v : list value) (f : Feature) :
  feature_list s = Some v ->
  nth_error v (pred (position f)) = widget f s.
Proof.
  intros H.
  pose proof (sequence_nth (widgets s) v (pred (position f)) H) as N.
  rewrite widgets_position in N.
  pose proof (position_range f).
  symmetry. injection N; [trivial | simpl; lia].
Qed.

(** ** The widget domains *)

Lemma choice_domain (options : list (string * float)) (index : nat) :
  choice options index <> None <-> (index < List.length options)%nat.
Proof.
  unfold choice, St.selectbox. rewrite <- nth_error_Some.
  destruct (nth_error options index); simpl; split; congruence.
Qed.

Lemma select_slider_domain {A} (options : list A) (index : nat) :
  St.select_slider options index <> None <->
  (index < List.length options)%nat.
Proof. unfold St.select_slider. apply nth_error_Some. Qed.

Lemma option_map_none {A B} (g : A -> B) (o : option A) :
  option_map g o <> None <-> o <> None.
Proof. destruct o; simpl; split; congruence. Qed.

Lemma slider_domain (lo hi x : Z) :
  St.slider lo hi x <> None <-> lo <= x <= hi.
Proof.
  unfold St.slider.
  destruct (lo <=? x) eqn:E1, (x <=? hi) eqn:E2; simpl; split;
    intros H; try congruence; try lia.
Qed.

Lemma number_input_domain (lo hi x : float) :
  St.number_input lo hi x <> None <-> fleb lo x && fleb x hi = true.
Proof.
  unfold St.number_input.
  destruct (fleb lo x && fleb x hi); split; congruence.
Qed.

Lemma widget_domain (f : Feature) (s : Session) :
  valid_session s = true -> widget f s <> None.
Proof.
  unfold valid_session. intros H.
  repeat (apply andb_prop in H; destruct H as [H ?]).
  repeat match goal with
         | K : (_ <? _)%nat = true |- _ => apply Nat.ltb_lt in K
         | K : (_ <=? _) = true |- _ => apply Z.leb_le in K
         end.
  destruct f; simpl;
    unfold high_bp, high_chol, chol_check, bmi, smoker, stroke,
      heart_disease, phys_activity, fruits, veggies, alcohol, gen_health,
      mental_health, phys_health, diff_walk, sex, age, education, income;
    try (apply choice_domain; simpl; lia);
    apply option_map_none;
    try (apply select_slider_domain; simpl; lia);
    try (apply slider_domain; lia).
  apply number_input_domain. now apply andb_true_intro.
Qed.

Lemma valid_feature_list (s : Session) :
  valid_session s = true -> exists v, feature_list s = Some v.
Proof.
  intros H. destruct (feature_list s) as [v|] eqn:E; [now exists v|].
  exfalso. revert E. rewrite feature_list_widgets. apply sequence_all.
  intros x Hx. apply In_nth_error in Hx. destruct Hx as [i Hi].
  assert (i < 19)%nat as Hlt.
  { change 19%nat with (List.length (widgets s)).
    apply nth_error_Some. congruence. }
  destruct (position_onto i Hlt) as [f <-].
  rewrite widgets_position in Hi. injection Hi as <-.
  now apply widget_domain.
Qed.

(** A feature list is built only from a session within the domains. *)
Lemma feature_list_valid (s : Session) (v : list value) :
  feature_list s = Some v -> valid_session s = true.
Proof.
  intros H.
  assert (forall f, widget f s <> None) as W.
  { intros f. rewrite <- (feature_list_position s v f H).
    apply nth_error_Some. rewrite (feature_list_length s v H).
    pose proof (position_range f). lia. }
  unfold valid_session.
  pose proof (W BMI) as Wb. simpl in Wb. unfold bmi in Wb.
  apply option_map_none, number_input_domain in Wb. rewrite Wb. simpl.
  repeat match goal with
         | |- _ && _ = true => apply andb_true_intro; split
         end.
  all: try apply Nat.ltb_lt; try apply Z.leb_le.
  - specialize (W HighBP). now apply choice_domain in W.
  - specialize (W HighChol). now apply choice_domain in W.
  - specialize (W CholCheck). now apply choice_domain in W.
  - specialize (W Stroke). now apply choice_domain in W.
  - specialize (W HeartDiseaseOrAttack). now apply choice_domain in W.
  - specialize (W PhysActivity). now apply choice_domain in W.
  - specialize (W Fruits). now apply choice_domain in W.
  - specialize (W Veggies). now apply choice_domain in W.
  - specialize (W Smoker). now apply choice_domain in W.
  - specialize (W HvyAlcoholConsump). now apply choice_domain in W.
  - specialize (W DiffWalk). now apply choice_domain in W.
  - specialize (W Sex). now apply choice_domain in W.
  - specialize (W Age). simpl in W. unfold age in W.
    now apply option_map_none, select_slider_domain in W.
  - specialize (W Education). simpl in W. unfold education in W.
    now apply option_map_none, select_slider_domain in W.
  - specialize (W Income). simpl in W. unfold income in W.
    now apply option_map_none, select_slider_domain in W.
  - specialize (W GenHealth). simpl in W. unfold gen_health in W.
    now apply option_map_none, select_slider_domain in W.
  - specialize (W MentHlth). simpl in W. unfold mental_health in W.
    apply option_map_none, slider_domain in W. lia.
  - specialize (W MentHlth). simpl in W. unfold mental_health in W.
    apply option_map_none, slider_domain in W. lia.
  - specialize (W PhysHlth). simpl in W. unfold phys_health in W.
    apply option_map_none, slider_domain in W. lia.
  - specialize (W PhysHlth). simpl in W. unfold phys_health in W.
    apply option_map_none, slider_domain in W. lia.
Qed.

(** ** What each widget can return *)

Lemma choice_yes_no (index : nat) (y : value) :
  choice yes_no index = Some y -> y = VFloat f0_0 \/ y = VFloat f1_0.
Proof.
  destruct index as [|[|[|k]]]; simpl; intros H; inversion H; auto.
Qed.

Lemma choice_female_male (index : nat) (y : value) :
  choice female_male index = Some y -> y = VFloat f0_0 \/ y = VFloat f1_0.
Proof.
  destruct index as [|[|[|k]]]; simpl; intros H; inversion H; auto.
Qed.

(** The features whose widget hands out a Python int. *)
Definition counted (f : Feature) : bool :=
  match f with
  | MentHlth | PhysHlth | Age | Education | Income => true
  | _ => false
  end.

Lemma option_map_some {A B} (g : A -> B) (o : option A) (y : B) :
  option_map g o = Some y -> exists x, o = Some x /\ y = g x.
Proof. destruct o; simpl; intros H; inversion H; eauto. Qed.

Lemma widget_kind (f : Feature) (s : Session) (y : value) :
  widget f s = Some y -> is_float y = negb (counted f).
Proof.
  destruct f; simpl;
    unfold high_bp, high_chol, chol_check, bmi, smoker, stroke,
      heart_disease, phys_activity, fruits, veggies, alcohol, gen_health,
      mental_health, phys_health, diff_walk, sex, age, education, income,
      choice;
    intros H; apply option_map_some in H; destruct H as [x [_ ->]];
    reflexivity.
Qed.

Lemma range_nth (a b : Z) (i : nat) (n : Z) :
  nth_error (range a b) i = Some n ->
  n = a + Z.of_nat i /\ a <= n < b.
Proof.
  unfold range. intros H.
  assert (i < Z.to_nat (b - a))%nat as Hi.
  { assert (nth_error
              (map (fun k => a + Z.of_nat k) (seq 0 (Z.to_nat (b - a)))) i
            <> None) as K by congruence.
    apply nth_error_Some in K. now rewrite length_map, length_seq in K. }
  rewrite nth_error_map, nth_error_seq in H.
  destruct (i <? Z.to_nat (b - a))%nat eqn:E.
  - simpl in H. inversion H. split; lia.
  - apply Nat.ltb_ge in E. lia.
Qed.

Lemma gen_health_nth (i : nat) (x : float) :
  nth_error gen_health_options i = Some x ->
  x = float_of_Z (1 + Z.of_nat i) /\ (i < 5)%nat.
Proof.
  do 5 (destruct i as [|i]; [simpl; intros H; inversion H; split;
                             [reflexivity | lia]|]).
  simpl. destruct i; discriminate.
Qed.

Lemma slider_some (lo hi x n : Z) :
  St.slider lo hi x = Some n -> n = x /\ lo <= x <= hi.
Proof.
  unfold St.slider.
  destruct (lo <=? x) eqn:E1, (x <=? hi) eqn:E2; simpl; intros H;
    inversion H. split; lia.
Qed.

(** ** The encoder *)

(** Claim C1.  For every session within the widget domains the encoder
    returns a list of nineteen values, and the value at the documented
    position of each feature (HighBP first, ..., Income nineteenth) is the
    one the widget of that feature returned, whatever the user changed. *)
Theorem encoder_order (s : Session) :
  valid_session s = true ->
  exists v,
    feature_list s = Some v /\
    List.length v = 19%nat /\
    forall f, widget f s <> None /\
              nth_error v (pred (position f)) = widget f s.
Proof.
  intros H. destruct (valid_feature_list s H) as [v E].
  exists v. split; [exact E|]. split; [now apply feature_list_length in E|].
  intros f. split; [now apply widget_domain|].
  now apply feature_list_position.
Qed.

Lemma encoder_order_default :
  valid_session default_session = true /\
  exists v,
    feature_list default_session = Some v /\
    List.length v = 19%nat /\
    forall f, widget f default_session <> None /\
              nth_error v (pred (position f)) = widget f default_session.
Proof.
  split; [reflexivity | apply (encoder_order default_session); reflexivity].
Defined.

(** The session of the worked example: BMI 25.0, high blood pressure, male,
    general health 3, age bucket 3, education 4, income 5, no poor-health
    days, everything else "No". *)
Definition example_session : Session :=
  mkSession f25_0 1 0 0 0 0 0 0 0 0 0 0 1 2 3 4 2 0 0.

(** Claim C2.  The worked example encodes to
    [1.0, 0.0, 0.0, 25.0, 0.0, 0.0, 0.0, 0.0, 0.0, 0.0, 0.0, 3.0, 0, 0,
     0.0, 1.0, 3, 4, 5], the day counts and the three ordinal codes being
    ints. *)
Theorem encoder_example :
  feature_list example_session =
  Some [ VFloat (float_of_Z 1); VFloat (float_of_Z 0); VFloat (float_of_Z 0);
         VFloat (float_of_Z 25); VFloat (float_of_Z 0);
         VFloat (float_of_Z 0); VFloat (float_of_Z 0);
         VFloat (float_of_Z 0); VFloat (float_of_Z 0);
         VFloat (float_of_Z 0); VFloat (float_of_Z 0);
         VFloat (float_of_Z 3); VInt 0; VInt 0; VFloat (float_of_Z 0);
         VFloat (float_of_Z 1); VInt 3; VInt 4; VInt 5 ].
Proof. reflexivity. Qed.

(** Claim C3.  Whatever is selected on a two-way field, the encoded value
    is the float 0.0 or the float 1.0 and nothing else, and every selection
    within the form's domains does get a value. *)
Theorem binary_fields (f : Feature) (s : Session) :
  binary f = true ->
  (forall y, widget f s = Some y -> y = VFloat f0_0 \/ y = VFloat f1_0) /\
  (valid_session s = true ->
   widget f s = Some (VFloat f0_0) \/ widget f s = Some (VFloat f1_0)).
Proof.
  intros B.
  assert (forall y, widget f s = Some y -> y = VFloat f0_0 \/ y = VFloat f1_0)
    as K.
  { destruct f; try discriminate B; simpl; intros y;
      first [apply choice_yes_no | apply choice_female_male]. }
  split; [exact K|].
  intros V. pose proof (widget_domain f s V) as W.
  destruct (widget f s) as [y|]; [|congruence].
  destruct (K y eq_refl) as [-> | ->]; auto.
Qed.

Lemma binary_fields_sex :
  binary Sex = true /\
  (forall y, widget Sex example_session = Some y ->
             y = VFloat f0_0 \/ y = VFloat f1_0) /\
  (valid_session example_session = true ->
   widget Sex example_session = Some (VFloat f0_0) \/
   widget Sex example_session = Some (VFloat f1_0)).
Proof.
  split; [reflexivity | apply (binary_fields Sex example_session); reflexivity].
Defined.

(** Which of the nineteen slots hold a float, in list order. *)
Definition float_slots : list bool :=
  [ true; true; true; true; true; true; true; true; true; true; true; true;
    false; false; true; true; false; false; false ].

Lemma float_slots_position (f : Feature) :
  nth_error float_slots (pred (position f)) = Some (negb (counted f)).
Proof. destruct f; reflexivity. Qed.

(** Claim C7, as stated, fails: the list built for a freshly opened form
    holds Python ints in five of its slots. *)
Lemma not_all_floats :
  exists v, feature_list default_session = Some v /\
            forallb is_float v = false /\
            nth_error v 12 = Some (VInt 0).
Proof. eexists. repeat split. Qed.

(** Claim C7, amended.  Every slot is numeric, and the kind of each slot is
    fixed: BMI, GenHealth and the twelve two-way fields are floats, while
    MentHlth, PhysHlth, Age, Education and Income are Python ints. *)
Theorem feature_kinds (s : Session) (v : list value) :
  feature_list s = Some v -> map is_float v = float_slots.
Proof.
  intros H.
  apply nth_error_ext. intros i.
  destruct (Nat.lt_ge_cases i 19) as [Hi|Hi].
  - destruct (position_onto i Hi) as [f <-].
    rewrite nth_error_map, float_slots_position.
    rewrite (feature_list_position s v f H).
    destruct (widget f s) as [y|] eqn:E.
    + simpl. f_equal. now apply widget_kind in E.
    + exfalso. revert E. apply widget_domain. now apply feature_list_valid in H.
  - transitivity (@None bool); [|symmetry]; apply nth_error_None.
    + rewrite length_map, (feature_list_length s v H). exact Hi.
    + exact Hi.
Qed.

Lemma feature_kinds_example :
  feature_list example_session <> None /\
  forall v, feature_list example_session = Some v ->
            map is_float v = float_slots.
Proof.
  split; [discriminate | intros v; apply (feature_kinds example_session v)].
Defined.

(** Claim C8.  The ordinal and count fields reach the list exactly as the
    widget reports them, and within their ranges: Age is the int code of
    the chosen bucket, 1 to 13; Education 1 to 6; Income 1 to 8; GenHealth
    the chosen grade 1.0 to 5.0; MentHlth and PhysHlth the int day counts
    of the sliders, 0 to 30. *)
Theorem ordinal_fields (s : Session) (v : list value) :
  feature_list s = Some v ->
  (exists n, St.select_slider (range 1 14) (s_age s) = Some n /\
             nth_error v 16 = Some (VInt n) /\ 1 <= n <= 13) /\
  (exists n, St.select_slider (range 1 7) (s_education s) = Some n /\
             nth_error v 17 = Some (VInt n) /\ 1 <= n <= 6) /\
  (exists n, St.select_slider (range 1 9) (s_income s) = Some n /\
             nth_error v 18 = Some (VInt n) /\ 1 <= n <= 8) /\
  (exists g, St.select_slider gen_health_options (s_gen_health s)
               = Some (float_of_Z g) /\
             nth_error v 11 = Some (VFloat (float_of_Z g)) /\ 1 <= g <= 5) /\
  (nth_error v 12 = Some (VInt (s_mental_health s)) /\
   0 <= s_mental_health s <= 30) /\
  (nth_error v 13 = Some (VInt (s_phys_health s)) /\
   0 <= s_phys_health s <= 30).
Proof.
  intros H.
  pose proof (feature_list_valid s v H) as V.
  pose proof (fun f => feature_list_position s v f H) as P.
  pose proof (fun f => widget_domain f s V) as W.
  repeat split.
  - specialize (P Age); specialize (W Age); simpl in P, W; unfold age in P, W.
    destruct (St.select_slider (range 1 14) (s_age s)) as [n|] eqn:E;
      [|now elim W].
    exists n. apply range_nth in E. repeat split; [exact P | lia | lia].
  - specialize (P Education); specialize (W Education); simpl in P, W;
      unfold education in P, W.
    destruct (St.select_slider (range 1 7) (s_education s)) as [n|] eqn:E;
      [|now elim W].
    exists n. apply range_nth in E. repeat split; [exact P | lia | lia].
  - specialize (P Income); specialize (W Income); simpl in P, W;
      unfold income in P, W.
    destruct (St.select_slider (range 1 9) (s_income s)) as [n|] eqn:E;
      [|now elim W].
    exists n. apply range_nth in E. repeat split; [exact P | lia | lia].
  - specialize (P GenHealth); specialize (W GenHealth); simpl in P, W;
      unfold gen_health in P, W.
    destruct (St.select_slider gen_health_options (s_gen_health s))
      as [x|] eqn:E; [|now elim W].
    apply gen_health_nth in E. destruct E as [-> Hi].
    exists (1 + Z.of_nat (s_gen_health s)).
    repeat split; [exact P | lia | lia].
  - specialize (P MentHlth); specialize (W MentHlth); simpl in P, W;
      unfold mental_health in P, W.
    destruct (St.slider 0 30 (s_mental_health s)) as [n|] eqn:E;
      [|now elim W].
    apply slider_some in E. destruct E as [-> _]. exact P.
  - unfold valid_session in V.
    repeat (apply andb_prop in V; destruct V as [V ?]).
    repeat match goal with
           | K : (_ <=? _) = true |- _ => apply Z.leb_le in K
           end. lia.
  - unfold valid_session in V.
    repeat (apply andb_prop in V; destruct V as [V ?]).
    repeat match goal with
           | K : (_ <=? _) = true |- _ => apply Z.leb_le in K
           end. lia.
  - specialize (P PhysHlth); specialize (W PhysHlth); simpl in P, W;
      unfold phys_health in P, W.
    destruct (St.slider 0 30 (s_phys_health s)) as [n|] eqn:E;
      [|now elim W].
    apply slider_some in E. destruct E as [-> _]. exact P.
  - unfold valid_session in V.
    repeat (apply andb_prop in V; destruct V as [V ?]).
    repeat match goal with
           | K : (_ <=? _) = true |- _ => apply Z.leb_le in K
           end. lia.
  - unfold valid_session in V.
    repeat (apply andb_prop in V; destruct V as [V ?]).
    repeat match goal with
           | K : (_ <=? _) = true |- _ => apply Z.leb_le in K
           end. lia.
Qed.

Lemma ordinal_fields_example :
  (exists n, St.select_slider (range 1 14) (s_age example_session) = Some n /\
             nth_error
               (match feature_list example_session with
                | Some v => v
                | None => []
                end) 16 = Some (VInt n) /\ 1 <= n <= 13) /\
  nth_error
    (match feature_list example_session with Some v => v | None => [] end)
    12 = Some (VInt 0).
Proof.
  destruct (ordinal_fields example_session
              (match feature_list example_session with
               | Some v => v
               | None => []
               end) eq_refl) as [A [_ [_ [_ [[M _] _]]]]].
  split; [exact A | exact M].
Defined.

(** The raw selection of a widget decides what the widget returns. *)
Lemma widget_selected (g : Feature) (s s' : Session) :
  selected g s = selected g s' -> widget g s = widget g s'.
Proof.
  destruct g; simpl; intros H; injection H as H;
    unfold high_bp, high_chol, chol_check, bmi, smoker, stroke,
      heart_disease, phys_activity, fruits, veggies, alcohol, gen_health,
      mental_health, phys_health, diff_walk, sex, age, education, income;
    now rewrite H.
Qed.

(** Claim C10.  If two sessions agree on every widget but that of feature
    [f], the two encoded lists agree at every index other than the slot of
    [f]. *)
Theorem encoder_frame (f : Feature) (s s' : Session) (v v' : list value) :
  (forall g, g <> f -> selected g s = selected g s') ->
  feature_list s = Some v ->
  feature_list s' = Some v' ->
  forall i, i <> pred (position f) -> nth_error v i = nth_error v' i.
Proof.
  intros Agree H H' i Hi.
  destruct (Nat.lt_ge_cases i 19) as [Lt|Ge].
  - destruct (position_onto i Lt) as [g <-].
    rewrite (feature_list_position s v g H).
    rewrite (feature_list_position s' v' g H').
    apply widget_selected, Agree.
    intros ->. now apply Hi.
  - transitivity (@None value); [|symmetry]; apply nth_error_None.
    + now rewrite (feature_list_length s v H).
    + now rewrite (feature_list_length s' v' H').
Qed.

(** The default form with only the blood-pressure box switched to "Yes". *)
Definition high_bp_session : Session :=
  mkSession f25_0 1 0 0 0 0 0 0 0 0 0 0 0 0 0 0 2 0 0.

Lemma encoder_frame_high_bp :
  (forall g, g <> HighBP ->
             selected g default_session = selected g high_bp_session) /\
  nth_error
    (match feature_list default_session with Some v => v | None => [] end) 3
  = nth_error
      (match feature_list high_bp_session with Some v => v | None => [] end)
      3.
Proof.
  assert (forall g, g <> HighBP ->
                    selected g default_session = selected g high_bp_session)
    as Agree.
  { intros g Hg. destruct g; first [reflexivity | now elim Hg]. }
  split; [exact Agree|].
  apply (encoder_frame HighBP default_session high_bp_session _ _
           Agree eq_refl eq_refl).
  simpl. discriminate.
Defined.

(** ** The invoker *)

(** The list of the worked example, and a classifier that labels every row
    of a batch 1. *)
Definition example_vector : list value :=
  match feature_list example_session with Some v => v | None => [] end.

Definition always_one : Model :=
  mkModel (fun _ batch => Ret (map (fun _ => VInt 1) batch)).

Lemma load_model_hit (a : Artifact) (p : Process) (r : option Model) :
  cache p = Some r -> load_model a p = (Ret r, p).
Proof. unfold load_model. now intros ->. Qed.

Lemma load_model_calls (a : Artifact) (p : Process) :
  calls (snd (load_model a p)) = calls p.
Proof.
  unfold load_model. destruct (cache p); [reflexivity|].
  destruct (load_model_body a) as [[x|e] evs]; reflexivity.
Qed.

(** What [load_model] returns is what the cache holds afterwards. *)
Lemma load_model_caches (a : Artifact) (p : Process) (r : option Model) :
  fst (load_model a p) = Ret r -> cache (snd (load_model a p)) = Some r.
Proof.
  unfold load_model. destruct (cache p) as [c|] eqn:E.
  - simpl. intros H. inversion H. subst. exact E.
  - destruct (load_model_body a) as [[x|e] evs]; simpl; intros H;
      inversion H. reflexivity.
Qed.

Lemma predict_cache (a : Artifact) (v : list value) (p : Process) :
  cache (snd (predict a v p)) = cache (snd (load_model a p)) /\
  log (snd (predict a v p)) = log (snd (load_model a p)).
Proof.
  unfold predict. destruct (load_model a p) as [[[m|]|e] p1]; simpl; auto.
Qed.

Lemma predict_hit_loaded (a : Artifact) (v : list value) (p : Process)
      (m : Model) :
  cache p = Some (Some m) ->
  predict a v p =
  (bind (m_predict m (calls p) [v])
        (fun ys => bind (index0 ys) (fun y => Ret (Some y))),
   mkProcess (cache p) (S (calls p)) (log p)).
Proof. intros H. unfold predict. now rewrite (load_model_hit a p _ H). Qed.

Lemma predict_hit_failed (a : Artifact) (v : list value) (p : Process) :
  cache p = Some None -> predict a v p = (Ret None, p).
Proof. intros H. unfold predict. now rewrite (load_model_hit a p _ H). Qed.

(** Claim C4, as stated, fails: an artifact that is there but cannot be
    read or unpickled makes the exception of the load escape [predict]. *)
Lemma unreadable_artifact_raises :
  unavailable (Corrupt UnpicklingError) = true /\
  fst (predict (Corrupt UnpicklingError) example_vector init)
  = Raise UnpicklingError /\
  unavailable (Unreadable PermissionError) = true /\
  fst (predict (Unreadable PermissionError) example_vector init)
  = Raise PermissionError.
Proof. repeat split. Qed.

(** Claim C4, amended.  If the artifact is missing when the model is
    loaded, [predict] returns None for every feature list, no exception
    escapes, the miss is remembered, and the button branch of [main] ends
    normally without showing a result. *)
Theorem predict_absent (p : Process) (v : list value) :
  cache p = None ->
  fst (predict Absent v p) = Ret None /\
  state (snd (predict Absent v p)) = LoadFailed /\
  forall s, valid_session s = true ->
            exists q, assess Absent s p = Some (Ret [], q).
Proof.
  intros H.
  assert (forall w, predict Absent w p
                    = (Ret None,
                       mkProcess (Some None) (calls p)
                                 ([EvError; EvOpen false] ++ log p))) as K.
  { intros w. unfold predict, load_model. now rewrite H. }
  repeat split.
  - now rewrite K.
  - now rewrite K.
  - intros s V. destruct (valid_feature_list s V) as [fl E].
    unfold assess. rewrite E, K. eauto.
Qed.

Lemma predict_absent_init :
  cache init = None /\
  fst (predict Absent example_vector init) = Ret None /\
  state (snd (predict Absent example_vector init)) = LoadFailed /\
  forall s, valid_session s = true ->
            exists q, assess Absent s init = Some (Ret [], q).
Proof.
  split; [reflexivity | apply (predict_absent init example_vector eq_refl)].
Defined.

Lemma predict_with_model (a : Artifact) (p : Process) (m : Model)
      (v : list value) :
  fst (load_model a p) = Ret (Some m) ->
  fst (predict a v p)
  = bind (m_predict m (calls p) [v])
         (fun ys => bind (index0 ys) (fun y => Ret (Some y))).
Proof.
  intros H. unfold predict. pose proof (load_model_calls a p) as C.
  destruct (load_model a p) as [r p1]. simpl in H, C. subst r.
  simpl. now rewrite C.
Qed.

(** Claim C5.  With the model loaded, [predict] calls the model's own
    [predict] on the one-row batch holding the feature list and returns
    the first element of what comes back, untouched; so a model that
    answers 1 makes the invoker answer 1. *)
Theorem predict_loaded (a : Artifact) (p : Process) (m : Model)
        (v : list value) :
  fst (load_model a p) = Ret (Some m) ->
  fst (predict a v p)
  = bind (m_predict m (calls p) [v])
         (fun ys => bind (index0 ys) (fun y => Ret (Some y))) /\
  (forall y rest,
      m_predict m (calls p) [v] = Ret (y :: rest) ->
      fst (predict a v p) = Ret (Some y)) /\
  (forall rest,
      m_predict m (calls p) [v] = Ret (VInt 1 :: rest) ->
      fst (predict a v p) = Ret (Some (VInt 1))).
Proof.
  intros H.
  assert (fst (predict a v p)
          = bind (m_predict m (calls p) [v])
                 (fun ys => bind (index0 ys) (fun y => Ret (Some y)))) as K.
  { unfold predict. pose proof (load_model_calls a p) as C.
    destruct (load_model a p) as [r p1]. simpl in H, C. subst r.
    simpl. now rewrite C. }
  split; [exact K|].
  split; [intros y rest E | intros rest E]; rewrite K, E; reflexivity.
Qed.

Lemma predict_loaded_always_one :
  fst (load_model (Pickled always_one) init) = Ret (Some always_one) /\
  fst (predict (Pickled always_one) example_vector init)
  = Ret (Some (VInt 1)).
Proof.
  split; [reflexivity|].
  destruct (predict_loaded (Pickled always_one) init always_one
              example_vector eq_refl) as [_ [_ K]].
  apply (K []). reflexivity.
Defined.

(** Claim C9.  Once a deterministic model is loaded, asking twice about
    the same feature list gives the same answer twice, whatever has become
    of the artifact in between. *)
Theorem predict_idempotent (a1 a2 : Artifact) (p : Process) (m : Model)
        (v : list value) :
  deterministic m ->
  fst (load_model a1 p) = Ret (Some m) ->
  fst (predict a2 v (snd (predict a1 v p))) = fst (predict a1 v p).
Proof.
  intros D H.
  pose proof (predict_with_model a1 p m v H) as K1.
  pose proof (load_model_caches a1 p _ H) as C.
  destruct (predict_cache a1 v p) as [Cp _]. rewrite C in Cp.
  rewrite (predict_hit_loaded a2 v _ m Cp), K1. simpl.
  now rewrite (D (calls (snd (predict a1 v p))) (calls p)).
Qed.

Lemma always_one_deterministic : deterministic always_one.
Proof. intros i j batch. reflexivity. Defined.

Lemma predict_idempotent_always_one :
  deterministic always_one /\
  fst (load_model (Pickled always_one) init) = Ret (Some always_one) /\
  fst (predict Absent example_vector
         (snd (predict (Pickled always_one) example_vector init)))
  = fst (predict (Pickled always_one) example_vector init).
Proof.
  split; [exact always_one_deterministic|].
  split; [reflexivity|].
  apply (predict_idempotent (Pickled always_one) Absent init always_one
           example_vector always_one_deterministic eq_refl).
Defined.

(** ** The invoker as a state machine *)

(** The cache holds a model exactly when one deserialization has
    succeeded. *)
Definition accounted (p : Process) : Prop :=
  deserializations p =
  match cache p with Some (Some _) => 1%nat | _ => 0%nat end.

Lemma handler_events (e : exn) (evs : list event) :
  filter is_unpickled evs = [] ->
  filter is_unpickled (snd (handler e evs)) = [] /\
  (fst (handler e evs) = Ret None \/ fst (handler e evs) = Raise e).
Proof.
  unfold handler. destruct (caught e); simpl; auto.
Qed.

Lemma load_model_body_cases (a : Artifact) :
  (exists m, a = Pickled m /\
             load_model_body a = (Ret (Some m), [EvUnpickle true; EvOpen true]))
  \/
  (filter is_unpickled (snd (load_model_body a)) = [] /\
   (fst (load_model_body a) = Ret None \/
    exists e, fst (load_model_body a) = Raise e)).
Proof.
  destruct a as [|e|e|m]; simpl.
  - right. auto.
  - right. destruct (handler_events e [EvOpen false] eq_refl) as [F [R|R]];
      eauto.
  - right.
    destruct (handler_events e [EvUnpickle false; EvOpen true] eq_refl)
      as [F [R|R]]; eauto.
  - left. eauto.
Qed.

Lemma load_model_accounted (a : Artifact) (p : Process) :
  accounted p -> accounted (snd (load_model a p)).
Proof.
  unfold accounted, deserializations, load_model. intros I.
  destruct (cache p) as [c|] eqn:E; [simpl; now rewrite E|].
  destruct (load_model_body_cases a) as [[m [-> B]] | [F R]].
  - rewrite B. simpl. now rewrite I.
  - destruct (load_model_body a) as [r evs]. simpl in F, R.
    destruct R as [-> | [e ->]]; simpl;
      rewrite filter_app, F; simpl; now rewrite I.
Qed.

Lemma predict_accounted (a : Artifact) (v : list value) (p : Process) :
  accounted p -> accounted (snd (predict a v p)).
Proof.
  intros I. apply (load_model_accounted a) in I.
  destruct (predict_cache a v p) as [C L].
  unfold accounted, deserializations in *. now rewrite C, L.
Qed.

Lemma run_cons (a : Artifact) (v : list value)
      (rest : list (Artifact * list value)) (p : Process) :
  snd (run ((a, v) :: rest) p) = snd (run rest (snd (predict a v p))).
Proof.
  simpl. destruct (predict a v p) as [r p1]. simpl.
  now destruct (run rest p1).
Qed.

Lemma run_accounted (subs : list (Artifact * list value)) (p : Process) :
  accounted p -> accounted (snd (run subs p)).
Proof.
  revert p. induction subs as [|[a v] rest IH]; intros p I.
  - exact I.
  - rewrite run_cons. now apply IH, predict_accounted.
Qed.

Lemma accounted_at_most_once (p : Process) :
  accounted p -> (deserializations p <= 1)%nat.
Proof.
  unfold accounted. intros ->. destruct (cache p) as [[m|]|]; lia.
Qed.

Definition is_open (e : event) : bool :=
  match e with EvOpen _ => true | _ => false end.

(** Claim C6, as stated, fails: a load that fails on a corrupt artifact
    leaves the invoker unloaded, so the next call opens the file again and
    either raises again or, the file repaired, answers with a label. *)
Lemma failed_load_is_retried :
  let p1 := snd (predict (Corrupt UnpicklingError) example_vector init) in
  fst (predict (Corrupt UnpicklingError) example_vector init)
  = Raise UnpicklingError /\
  state p1 = Unloaded /\
  fst (predict (Corrupt UnpicklingError) example_vector p1)
  = Raise UnpicklingError /\
  fst (predict (Pickled always_one) example_vector p1)
  = Ret (Some (VInt 1)) /\
  List.length
    (filter is_open
       (log (snd (predict (Pickled always_one) example_vector p1))))
  = 2%nat.
Proof. repeat split. Qed.

(** Claim C6, amended.  At any point of any sequence of submissions since
    process start: an artifact has been deserialized at most once; in state
    Loaded the next call keeps the same model and does not touch the file;
    in state LoadFailed, reached when the file was missing at the load, the
    next call returns None and does not touch the file; an unloaded invoker
    that meets a missing file moves to LoadFailed and one that meets a
    good artifact moves to Loaded with that model; and no call leads from
    Loaded or LoadFailed to another state. *)
Theorem invoker_states (subs : list (Artifact * list value)) (a : Artifact)
        (v : list value) :
  let p := snd (run subs init) in
  let q := snd (predict a v p) in
  (deserializations q <= 1)%nat /\
  (forall m, state p = Loaded m -> state q = Loaded m /\ log q = log p) /\
  (state p = LoadFailed ->
   fst (predict a v p) = Ret None /\ state q = LoadFailed /\ log q = log p) /\
  (state p = Unloaded -> a = Absent ->
   fst (predict a v p) = Ret None /\ state q = LoadFailed) /\
  (forall m, state p = Unloaded -> a = Pickled m ->
             state q = Loaded m /\ deserializations q = 1%nat) /\
  (state p <> Unloaded -> state q = state p).
Proof.
  intros p q.
  assert (accounted p) as Ip by (apply run_accounted; reflexivity).
  assert (accounted q) as Iq by now apply predict_accounted.
  split; [now apply accounted_at_most_once|].
  subst q. generalize dependent p. intros p Ip Iq.
  unfold state in *.
  destruct (cache p) as [[m0|]|] eqn:E.
  - rewrite (predict_hit_loaded a v p m0 E) in *. simpl. rewrite E.
    repeat split; try congruence; try discriminate.
  - rewrite (predict_hit_failed a v p E) in *. simpl. rewrite E.
    repeat split; try congruence; try discriminate.
  - repeat split; try discriminate; try congruence; subst a;
      revert Iq; unfold accounted, deserializations, predict, load_model;
      now rewrite E.
Qed.

Lemma invoker_states_missing_then_present :
  let p := snd (run [(Absent, example_vector)] init) in
  let q := snd (predict (Pickled always_one) example_vector p) in
  state p = LoadFailed /\
  fst (predict (Pickled always_one) example_vector p) = Ret None /\
  state q = LoadFailed /\ log q = log p.
Proof.
  intros p q.
  destruct (invoker_states [(Absent, example_vector)] (Pickled always_one)
              example_vector) as [_ [_ [F _]]].
  split; [reflexivity | apply F; reflexivity].
Defined.


(** * Further properties of the form and of the invoker *)

(** ** What the widgets display *)

Module Display.

(** [xs[i]] for a Python list and an int index: a negative index counts
    from the end; [None] stands for the IndexError of an index out of
    range. *)
Definition getitem {A} (xs : list A) (i : Z) : option A :=
  let n := Z.of_nat (List.length xs) in
  if (0 <=? i) && (i <? n) then nth_error xs (Z.to_nat i)
  else if (- n <=? i) && (i <? 0) then nth_error xs (Z.to_nat (i + n))
  else None.

(** [int(x)] for a float: truncation towards zero; [None] stands for the
    error raised on an infinity or a NaN. *)
Definition int_of_float (x : float) : option Z :=
  match x with
  | S754_zero _ => Some 0
  | S754_finite sign m e =>
      let a := if 0 <=? e then Z.pos m * 2 ^ e else Z.pos m / 2 ^ (- e) in
      Some (if sign then - a else a)
  | S754_infinity _ => None
  | S754_nan => None
  end.

(** [x - 1] for a float [x]. *)
Definition minus_one (x : float) : float := SFsub prec emax x (float_of_Z 1).

Definition age_labels : list string :=
  [ "18-24"; "25-29"; "30-34"; "35-39"; "40-44"; "45-49";
    "50-54"; "55-59"; "60-64"; "65-69"; "70-74"; "75-79"; "80+" ]%string.

Definition education_labels : list string :=
  [ "Never attended/kindergarten";
    "Elementary (1-8)";
    "Some high school";
    "High school graduate";
    "Some college";
    "College graduate" ]%string.

Definition income_labels : list string :=
  [ "<$10,000"; "<$20,000"; "<$25,000"; "<$30,000";
    "<$35,000"; "<$50,000"; "<$60,000"; "≥$75,000" ]%string.

Definition gen_health_labels : list string :=
  [ "Excellent"; "Very Good"; "Good"; "Fair"; "Poor" ]%string.

(** The [format_func] of the four select sliders. *)
Definition age_format (x : Z) : option string := getitem age_labels (x - 1).

Definition education_format (x : Z) : option string :=
  getitem education_labels (x - 1).

Definition income_format (x : Z) : option string :=
  getitem income_labels (x - 1).

Definition gen_health_format (x : float) : option string :=
  match int_of_float (minus_one x) with
  | Some i => getitem gen_health_labels i
  | None => None
  end.

(** The [format_func] of the select boxes: [lambda x: x[0]]. *)
Definition box_format (o : string * float) : string := fst o.

(** The label a select box shows for its current state. *)
Definition box_label (options : list (string * float)) (index : nat)
  : option string :=
  option_map box_format (St.selectbox options index).

End Display.

Import Display.

(** The options of the select box of a two-way field. *)
Definition box_options (f : Feature) : list (string * float) :=
  match f with
  | Sex => female_male
  | _ => yes_no
  end.

(** ** The page as a whole *)

(** One run of [main]: the button branch runs only when the button was
    pressed in this run. *)
Definition main (clicked : bool) (a : Artifact) (s : Session) (p : Process)
  : option (result (list notice) * Process) :=
  if clicked then assess a s p else Some (Ret [], p).

(** Successive runs of the script in one process.  A run that ends in an
    exception does not end the process. *)
Fixpoint reruns (rs : list (bool * Artifact * Session)) (p : Process)
  : option Process :=
  match rs with
  | [] => Some p
  | (clicked, a, s) :: rest =>
      match main clicked a s p with
      | Some (_, p1) => reruns rest p1
      | None => None
      end
  end.

Definition is_error (e : event) : bool :=
  match e with EvError => true | _ => false end.

Definition opens (p : Process) : nat :=
  List.length (filter is_open (log p)).

Definition error_notices (p : Process) : nat :=
  List.length (filter is_error (log p)).

Definition clicks (rs : list (bool * Artifact * Session)) : nat :=
  List.length (filter (fun r => fst (fst r)) rs).

(** ** Labels *)

Lemma range_index (a b : Z) (i : nat) (x : Z) :
  St.select_slider (range a b) i = Some x ->
  x = a + Z.of_nat i /\ (i < Z.to_nat (b - a))%nat.
Proof.
  unfold St.select_slider. intros H.
  destruct (range_nth a b i x H) as [E B]. split; [exact E | lia].
Qed.

Ltac step_index i := destruct i as [|i]; [reflexivity|].

Tactic Notation "by_index" ident(i) integer(n) :=
  do n (step_index i); exfalso; simpl in *; lia.

Lemma age_format_option (i : nat) (x : Z) :
  St.select_slider (range 1 14) i = Some x ->
  age_format x = nth_error age_labels i.
Proof.
  intros H. apply range_index in H. destruct H as [-> B]. simpl in B.
  by_index i 13.
Qed.

Lemma education_format_option (i : nat) (x : Z) :
  St.select_slider (range 1 7) i = Some x ->
  education_format x = nth_error education_labels i.
Proof.
  intros H. apply range_index in H. destruct H as [-> B]. simpl in B.
  by_index i 6.
Qed.

Lemma income_format_option (i : nat) (x : Z) :
  St.select_slider (range 1 9) i = Some x ->
  income_format x = nth_error income_labels i.
Proof.
  intros H. apply range_index in H. destruct H as [-> B]. simpl in B.
  by_index i 8.
Qed.

Lemma gen_health_format_option (i : nat) (x : float) :
  St.select_slider gen_health_options i = Some x ->
  gen_health_format x = nth_error gen_health_labels i.
Proof.
  unfold St.select_slider. intros H.
  do 5 (destruct i as [|i]; [inversion H; reflexivity|]).
  destruct i; discriminate.
Qed.

Lemma labelled {A} (options : list A) (labels : list string) (i : nat) (x : A) :
  List.length options = List.length labels ->
  nth_error options i = Some x ->
  nth_error labels i <> None.
Proof.
  intros L H. apply nth_error_Some. rewrite <- L.
  apply nth_error_Some. congruence.
Qed.

Ltac distinct :=
  repeat (constructor; [simpl; intuition discriminate|]); constructor.

(** Every option of the four select sliders has a label of its own:
    formatting the option at index [i] raises nothing and gives the
    [i]-th label of the widget's label list, and no label occurs twice in
    a list. *)
Theorem slider_labels (i : nat) :
  (forall x, St.select_slider (range 1 14) i = Some x ->
             age_format x = nth_error age_labels i /\
             age_format x <> None) /\
  (forall x, St.select_slider (range 1 7) i = Some x ->
             education_format x = nth_error education_labels i /\
             education_format x <> None) /\
  (forall x, St.select_slider (range 1 9) i = Some x ->
             income_format x = nth_error income_labels i /\
             income_format x <> None) /\
  (forall x, St.select_slider gen_health_options i = Some x ->
             gen_health_format x = nth_error gen_health_labels i /\
             gen_health_format x <> None) /\
  NoDup age_labels /\ NoDup education_labels /\
  NoDup income_labels /\ NoDup gen_health_labels.
Proof.
  repeat split.
  - now apply age_format_option.
  - rewrite (age_format_option i x H).
    now apply (labelled (range 1 14) age_labels i x).
  - now apply education_format_option.
  - rewrite (education_format_option i x H).
    now apply (labelled (range 1 7) education_labels i x).
  - now apply income_format_option.
  - rewrite (income_format_option i x H).
    now apply (labelled (range 1 9) income_labels i x).
  - now apply gen_health_format_option.
  - rewrite (gen_health_format_option i x H).
    now apply (labelled gen_health_options gen_health_labels i x).
  - distinct.
  - distinct.
  - distinct.
  - distinct.
Qed.

Lemma slider_labels_third_bucket :
  St.select_slider (range 1 14) 2 = Some 3 /\
  age_format 3 = Some "30-34"%string.
Proof.
  split; [reflexivity|].
  destruct (slider_labels 2) as [A _].
  destruct (A 3 eq_refl) as [E _]. exact E.
Defined.

(** The label a select box shows tells the encoded value: on every two-way
    field, the option shown as "Yes" (as "Male" on the sex box) encodes to
    1.0 and the other one, "No" (or "Female"), to 0.0; the box of a freshly
    opened form shows the 0.0 option. *)
Theorem box_labels (f : Feature) (s : Session) (l : string) (y : value) :
  binary f = true ->
  match selected f s with
  | Picked i => box_label (box_options f) i = Some l
  | _ => False
  end ->
  widget f s = Some y ->
  (y = VFloat f1_0 <-> (l = "Yes" \/ l = "Male")%string) /\
  (y = VFloat f0_0 <-> (l = "No" \/ l = "Female")%string) /\
  widget f default_session = Some (VFloat f0_0).
Proof.
  intros B L W.
  assert (VFloat f1_0 <> VFloat f0_0) as N by discriminate.
  destruct f; try discriminate B; simpl in L, W |- *;
    unfold high_bp, high_chol, chol_check, smoker, stroke, heart_disease,
      phys_activity, fruits, veggies, alcohol, diff_walk, sex in W;
    match type of L with
    | box_label _ ?i = _ =>
        destruct i as [|[|[|k]]]; simpl in L, W; try discriminate L;
        inversion L; inversion W; subst;
        (split; [|split; [|reflexivity]]);
        split; intros H; auto;
        try (destruct H as [H|H]; discriminate H);
        try (now elim N); try (symmetry in H; now elim N)
    end.
Qed.

Lemma box_labels_male :
  binary Sex = true /\
  ((VFloat f1_0 = VFloat f1_0 <-> ("Male" = "Yes" \/ "Male" = "Male")%string)
   /\ (VFloat f1_0 = VFloat f0_0 <->
       ("Male" = "No" \/ "Male" = "Female")%string)
   /\ widget Sex default_session = Some (VFloat f0_0)).
Proof.
  split; [reflexivity|].
  apply (box_labels Sex example_session "Male"%string (VFloat f1_0));
    reflexivity.
Defined.

(** ** The encoder loses nothing *)

Lemma choice_index (options : list (string * float)) (i j : nat) :
  options = yes_no \/ options = female_male ->
  choice options i <> None ->
  choice options i = choice options j ->
  i = j.
Proof.
  intros [-> | ->] N E;
    destruct i as [|[|[|i]]]; simpl in N; try (now elim N);
    destruct j as [|[|[|j]]]; simpl in E; try discriminate E; reflexivity.
Qed.

Lemma range_slider_index (a b : Z) (i j : nat) :
  St.select_slider (range a b) i <> None ->
  option_map VInt (St.select_slider (range a b) i)
  = option_map VInt (St.select_slider (range a b) j) ->
  i = j.
Proof.
  intros N E.
  destruct (St.select_slider (range a b) i) as [x|] eqn:Ei; [|now elim N].
  destruct (St.select_slider (range a b) j) as [y|] eqn:Ej;
    [|discriminate E].
  simpl in E. injection E as <-.
  apply range_index in Ei, Ej. lia.
Qed.

Lemma gen_health_index (i j : nat) :
  St.select_slider gen_health_options i <> None ->
  option_map VFloat (St.select_slider gen_health_options i)
  = option_map VFloat (St.select_slider gen_health_options j) ->
  i = j.
Proof.
  unfold St.select_slider. intros N E.
  do 5 (destruct i as [|i];
        [do 5 (destruct j as [|j]; [first [reflexivity | discriminate E]|]);
         destruct j; discriminate E|]).
  destruct i; now elim N.
Qed.

Lemma slider_value (lo hi x y : Z) :
  St.slider lo hi x <> None ->
  option_map VInt (St.slider lo hi x) = option_map VInt (St.slider lo hi y) ->
  x = y.
Proof.
  intros N E.
  destruct (St.slider lo hi x) as [n|] eqn:Ex; [|now elim N].
  destruct (St.slider lo hi y) as [m|] eqn:Ey; [|discriminate E].
  apply slider_some in Ex, Ey. simpl in E. injection E as E. lia.
Qed.

Lemma number_input_value (lo hi x y : float) :
  St.number_input lo hi x <> None ->
  option_map VFloat (St.number_input lo hi x)
  = option_map VFloat (St.number_input lo hi y) ->
  x = y.
Proof.
  unfold St.number_input. intros N E.
  destruct (fleb lo x && fleb x hi); [|now elim N].
  destruct (fleb lo y && fleb y hi); [|discriminate E].
  simpl in E. now injection E.
Qed.

(** Two form states that encode to the same feature list are the same
    state: no selection is lost or merged with another by the encoding. *)
Theorem encoder_injective (s s' : Session) (v : list value) :
  feature_list s = Some v ->
  feature_list s' = Some v ->
  s = s'.
Proof.
  intros H H'.
  pose proof (feature_list_valid s v H) as V.
  assert (forall f, widget f s <> None /\ widget f s = widget f s') as W.
  { intros f. split; [now apply widget_domain|].
    now rewrite <- (feature_list_position s v f H),
                <- (feature_list_position s' v f H'). }
  assert (s_bmi s = s_bmi s') as E1.
  { destruct (W BMI) as [N E]. simpl in N, E. unfold bmi in N, E.
    apply option_map_none in N. now apply number_input_value in E. }
  assert (s_high_bp s = s_high_bp s') as E2
      by (destruct (W HighBP) as [N E]; refine (choice_index _ _ _ _ N E); auto).
  assert (s_high_chol s = s_high_chol s') as E3
      by (destruct (W HighChol) as [N E]; refine (choice_index _ _ _ _ N E); auto).
  assert (s_chol_check s = s_chol_check s') as E4
      by (destruct (W CholCheck) as [N E]; refine (choice_index _ _ _ _ N E); auto).
  assert (s_stroke s = s_stroke s') as E5
      by (destruct (W Stroke) as [N E]; refine (choice_index _ _ _ _ N E); auto).
  assert (s_heart_disease s = s_heart_disease s') as E6
      by (destruct (W HeartDiseaseOrAttack) as [N E]; refine (choice_index _ _ _ _ N E); auto).
  assert (s_phys_activity s = s_phys_activity s') as E7
      by (destruct (W PhysActivity) as [N E]; refine (choice_index _ _ _ _ N E); auto).
  assert (s_fruits s = s_fruits s') as E8
      by (destruct (W Fruits) as [N E]; refine (choice_index _ _ _ _ N E); auto).
  assert (s_veggies s = s_veggies s') as E9
      by (destruct (W Veggies) as [N E]; refine (choice_index _ _ _ _ N E); auto).
  assert (s_smoker s = s_smoker s') as E10
      by (destruct (W Smoker) as [N E]; refine (choice_index _ _ _ _ N E); auto).
  assert (s_alcohol s = s_alcohol s') as E11
      by (destruct (W HvyAlcoholConsump) as [N E]; refine (choice_index _ _ _ _ N E); auto).
  assert (s_diff_walk s = s_diff_walk s') as E12
      by (destruct (W DiffWalk) as [N E]; refine (choice_index _ _ _ _ N E); auto).
  assert (s_sex s = s_sex s') as E13
      by (destruct (W Sex) as [N E]; refine (choice_index _ _ _ _ N E); auto).
  assert (s_age s = s_age s') as E14.
  { destruct (W Age) as [N E]. simpl in N, E. unfold age in N, E.
    apply option_map_none in N. now apply range_slider_index in E. }
  assert (s_education s = s_education s') as E15.
  { destruct (W Education) as [N E]. simpl in N, E. unfold education in N, E.
    apply option_map_none in N. now apply range_slider_index in E. }
  assert (s_income s = s_income s') as E16.
  { destruct (W Income) as [N E]. simpl in N, E. unfold income in N, E.
    apply option_map_none in N. now apply range_slider_index in E. }
  assert (s_gen_health s = s_gen_health s') as E17.
  { destruct (W GenHealth) as [N E]. simpl in N, E. unfold gen_health in N, E.
    apply option_map_none in N. now apply gen_health_index in E. }
  assert (s_mental_health s = s_mental_health s') as E18.
  { destruct (W MentHlth) as [N E]. simpl in N, E.
    unfold mental_health in N, E.
    apply option_map_none in N. now apply slider_value in E. }
  assert (s_phys_health s = s_phys_health s') as E19.
  { destruct (W PhysHlth) as [N E]. simpl in N, E.
    unfold phys_health in N, E.
    apply option_map_none in N. now apply slider_value in E. }
  clear H H' V W.
  destruct s, s'. simpl in *. subst. reflexivity.
Qed.

Lemma encoder_injective_example :
  feature_list example_session = Some example_vector /\
  example_session = example_session.
Proof.
  split; [reflexivity|].
  apply (encoder_injective example_session example_session example_vector);
    reflexivity.
Defined.

(** The BMI slot holds the number typed into the box as it is, and that
    number is a positive finite float between 18.0 and 50.0: never a NaN,
    an infinity or a zero. *)
Theorem bmi_slot (s : Session) (v : list value) :
  feature_list s = Some v ->
  nth_error v 3 = Some (VFloat (s_bmi s)) /\
  fleb f18_0 (s_bmi s) = true /\ fleb (s_bmi s) f50_0 = true /\
  exists m e, s_bmi s = S754_finite false m e.
Proof.
  intros H.
  pose proof (feature_list_position s v BMI H) as P. simpl in P.
  pose proof (feature_list_valid s v H) as V.
  pose proof (widget_domain BMI s V) as W. simpl in W.
  unfold bmi in P, W. apply option_map_none in W.
  pose proof W as D. apply number_input_domain in D.
  apply andb_prop in D. destruct D as [D1 D2].
  unfold St.number_input in P. rewrite D1, D2 in P. simpl in P.
  repeat split; try assumption.
  destruct (s_bmi s) as [b| [|] | | [|] m e]; try discriminate D1;
    try discriminate D2.
  now exists m, e.
Qed.

Lemma bmi_slot_example :
  feature_list example_session = Some example_vector /\
  nth_error example_vector 3 = Some (VFloat f25_0).
Proof.
  split; [reflexivity|].
  destruct (bmi_slot example_session example_vector eq_refl) as [P _].
  exact P.
Defined.

(** ** Loading *)

(** A load that fails for another reason than a missing file.  Whatever
    [open] or [pickle.load] raises is caught only if it is a
    FileNotFoundError: then None is returned and cached, also when it was
    the unpickling that raised it.  Any other exception leaves [predict]
    as it was raised, and the process is as before but for the record of
    the attempt: nothing cached, no inference made. *)
Theorem load_failure_outcomes (a : Artifact) (e : exn) (v : list value)
        (p : Process) :
  cache p = None ->
  a = Unreadable e \/ a = Corrupt e ->
  if caught e
  then fst (predict a v p) = Ret None /\
       state (snd (predict a v p)) = LoadFailed /\
       error_notices (snd (predict a v p)) = S (error_notices p)
  else fst (predict a v p) = Raise e /\
       state (snd (predict a v p)) = Unloaded /\
       calls (snd (predict a v p)) = calls p /\
       error_notices (snd (predict a v p)) = error_notices p.
Proof.
  intros C [-> | ->]; unfold predict, load_model, load_model_body, handler;
    rewrite C; destruct (caught e); simpl; repeat split.
Qed.

Lemma load_failure_outcomes_eof :
  cache init = None /\
  fst (predict (Corrupt EOFError) example_vector init) = Raise EOFError /\
  state (snd (predict (Corrupt EOFError) example_vector init)) = Unloaded.
Proof.
  split; [reflexivity|].
  destruct (load_failure_outcomes (Corrupt EOFError) EOFError example_vector
              init eq_refl (or_intror eq_refl)) as [R [S _]].
  split; [exact R | exact S].
Defined.

Lemma predict_filled (a a' : Artifact) (v : list value) (p : Process) :
  cache p <> None ->
  predict a v p = predict a' v p /\
  cache (snd (predict a v p)) = cache p /\
  log (snd (predict a v p)) = log p.
Proof.
  intros N. destruct (cache p) as [[m|]|] eqn:E; [| |now elim N].
  - rewrite (predict_hit_loaded a v p m E), (predict_hit_loaded a' v p m E).
    simpl. auto.
  - rewrite (predict_hit_failed a v p E), (predict_hit_failed a' v p E).
    simpl. auto.
Qed.

(** Once the cache is filled, with a model or with the None of a missing
    file, the file no longer matters: whatever is at the path during the
    later submissions, the answers are the same, the file is not opened
    and the cache keeps its entry.  So a model file put in place or
    replaced while the process runs is not picked up. *)
Theorem cache_is_sticky (subs subs' : list (Artifact * list value))
        (p : Process) :
  cache p <> None ->
  map snd subs = map snd subs' ->
  fst (run subs p) = fst (run subs' p) /\
  cache (snd (run subs p)) = cache p /\
  log (snd (run subs p)) = log p.
Proof.
  revert subs' p.
  induction subs as [|[a v] rest IH]; intros [|[a' v'] rest'] p N E;
    try discriminate E.
  - simpl. auto.
  - simpl in E. injection E as <- E.
    destruct (predict_filled a a' v p N) as [P [C L]].
    simpl. rewrite <- P.
    destruct (predict a v p) as [r p1] eqn:Q. simpl in C, L.
    assert (cache p1 <> None) as N1 by now rewrite C.
    destruct (IH rest' p1 N1 E) as [R [C1 L1]].
    destruct (run rest p1) as [rs p2]. destruct (run rest' p1) as [rs' p2'].
    simpl in *. subst rs'. repeat split; congruence.
Qed.

Lemma cache_is_sticky_after_miss :
  let p := snd (predict Absent example_vector init) in
  cache p <> None /\
  fst (run [(Pickled always_one, example_vector)] p)
  = fst (run [(Absent, example_vector)] p) /\
  fst (run [(Pickled always_one, example_vector)] p) = [Ret None].
Proof.
  intros p.
  assert (cache p <> None) as N by discriminate.
  split; [exact N|].
  destruct (cache_is_sticky [(Pickled always_one, example_vector)]
              [(Absent, example_vector)] p N eq_refl) as [R _].
  split; [exact R | reflexivity].
Defined.




(** ** The button branch *)

Lemma f1_0_value : f1_0 = S754_finite false 4503599627370496 (-52).
Proof. vm_compute. reflexivity. Qed.

(** Equality with a positive finite float. *)
Lemma SFeqb_finite (x : float) (m : positive) (e : Z) :
  SFeqb x (S754_finite false m e) = true <-> x = S754_finite false m e.
Proof.
  unfold SFeqb, SFcompare.
  destruct x as [b|b| |b m' e'].
  - destruct b; split; intros H; discriminate H.
  - destruct b; split; intros H; discriminate H.
  - split; intros H; discriminate H.
  - destruct b; [split; intros H; discriminate H|].
    change (Pos.compare_cont Eq m' m) with (Pos.compare m' m).
    destruct (Z.compare_spec e' e) as [Ee|Ee|Ee].
    + subst e'.
      destruct (Pos.compare_spec m' m) as [Em|Em|Em].
      * subst m'. split; reflexivity.
      * split; intros H; [discriminate H | injection H as ->; lia].
      * split; intros H; [discriminate H | injection H as ->; lia].
    + split; intros H; [discriminate H | injection H as _ ->; lia].
    + split; intros H; [discriminate H | injection H as _ ->; lia].
Qed.

Lemma SFeqb_one (x : float) : SFeqb x f1_0 = true <-> x = f1_0.
Proof. rewrite f1_0_value. apply SFeqb_finite. Qed.

Lemma equals_one_spec (y : value) :
  equals_one y = true <-> y = VInt 1 \/ y = VFloat f1_0.
Proof.
  destruct y as [x|n]; unfold equals_one.
  - rewrite SFeqb_one. split.
    + intros ->. now right.
    + intros [H|H]; [discriminate H | now injection H].
  - rewrite Z.eqb_eq. split.
    + intros ->. now left.
    + intros [H|H]; [now injection H | discriminate H].
Qed.

Lemma predict_keeps_model (a : Artifact) (v : list value) (p : Process)
      (m : Model) :
  fst (load_model a p) = Ret (Some m) ->
  state (snd (predict a v p)) = Loaded m.
Proof.
  intros H. unfold state.
  destruct (predict_cache a v p) as [C _].
  now rewrite C, (load_model_caches a p _ H).
Qed.

Lemma assess_predict (a : Artifact) (s : Session) (p : Process)
      (fl : list value) :
  feature_list s = Some fl ->
  assess a s p =
  Some (match fst (predict a fl p) with
        | Raise e => Raise e
        | Ret None => Ret []
        | Ret (Some y) =>
            Ret [Results;
                 if equals_one y then HigherRisk else LowerRisk;
                 ImportantNotice]
        end, snd (predict a fl p)).
Proof.
  intros H. unfold assess. rewrite H.
  now destruct (predict a fl p) as [r p1].
Qed.

(** With a model loaded that answers the submitted form with a sequence
    starting with [y], pressing the button shows the results header, one
    verdict and the closing notice.  The verdict is "higher risk" exactly
    when [y] equals 1, as the int 1 or the float 1.0; every other label,
    not just 0, is shown as "lower risk".  The model was given one row of
    nineteen values. *)
Theorem assess_verdict (a : Artifact) (s : Session) (p : Process)
        (m : Model) (fl : list value) (y : value) (rest : list value) :
  feature_list s = Some fl ->
  fst (load_model a p) = Ret (Some m) ->
  m_predict m (calls p) [fl] = Ret (y :: rest) ->
  List.length fl = 19%nat /\
  exists verdict q,
    assess a s p = Some (Ret [Results; verdict; ImportantNotice], q) /\
    state q = Loaded m /\
    (verdict = HigherRisk <-> y = VInt 1 \/ y = VFloat f1_0) /\
    (verdict = LowerRisk <-> ~ (y = VInt 1 \/ y = VFloat f1_0)).
Proof.
  intros F L M.
  split; [now apply feature_list_length in F|].
  pose proof (predict_with_model a p m fl L) as K. rewrite M in K.
  simpl in K.
  exists (if equals_one y then HigherRisk else LowerRisk).
  exists (snd (predict a fl p)).
  rewrite (assess_predict a s p fl F), K.
  split; [reflexivity|]. split; [now apply predict_keeps_model|].
  rewrite <- equals_one_spec.
  destruct (equals_one y); repeat split; intros H;
    try reflexivity; try discriminate H; try congruence.
Qed.

(** A classifier that labels every row 2. *)
Definition always_two : Model :=
  mkModel (fun _ batch => Ret (map (fun _ => VInt 2) batch)).

Lemma assess_verdict_two :
  feature_list example_session = Some example_vector /\
  exists q,
    assess (Pickled always_two) example_session init
    = Some (Ret [Results; LowerRisk; ImportantNotice], q).
Proof.
  split; [reflexivity|].
  destruct (assess_verdict (Pickled always_two) example_session init
              always_two example_vector (VInt 2) [] eq_refl eq_refl eq_refl)
    as [_ [verdict [q [A [_ [_ Lo]]]]]].
  exists q. rewrite A.
  assert (verdict = LowerRisk) as ->.
  { apply Lo. intros [H|H]; discriminate H. }
  reflexivity.
Defined.

(** [main] does not guard the inference call: with a model loaded, an
    exception raised by the model's [predict] leaves [main] as it is, and a
    model that answers with an empty sequence makes [main] end in an
    IndexError.  The model stays cached either way. *)
Theorem model_failure_escapes (a : Artifact) (s : Session) (p : Process)
        (m : Model) (fl : list value) :
  feature_list s = Some fl ->
  fst (load_model a p) = Ret (Some m) ->
  (forall e, m_predict m (calls p) [fl] = Raise e ->
             exists q, assess a s p = Some (Raise e, q) /\
                       state q = Loaded m) /\
  (m_predict m (calls p) [fl] = Ret [] ->
   exists q, assess a s p = Some (Raise IndexError, q) /\
             state q = Loaded m).
Proof.
  intros F L.
  pose proof (predict_with_model a p m fl L) as K.
  pose proof (predict_keeps_model a fl p m L) as S.
  split; [intros e M | intros M]; exists (snd (predict a fl p));
    rewrite (assess_predict a s p fl F), K, M; simpl; auto.
Qed.

(** A classifier that answers with no label at all. *)
Definition mute : Model := mkModel (fun _ _ => Ret []).

Lemma model_failure_escapes_mute :
  feature_list example_session = Some example_vector /\
  exists q,
    assess (Pickled mute) example_session init = Some (Raise IndexError, q) /\
    state q = Loaded mute.
Proof.
  split; [reflexivity|].
  destruct (model_failure_escapes (Pickled mute) example_session init mute
              example_vector eq_refl eq_refl) as [_ K].
  apply K. reflexivity.
Defined.

(** ** Reruns of the page *)

Lemma predict_cost (a : Artifact) (v : list value) (p : Process) :
  (opens (snd (predict a v p)) <= S (opens p))%nat /\
  (calls (snd (predict a v p)) <= S (calls p))%nat.
Proof.
  unfold opens.
  destruct (predict_cache a v p) as [_ L]. rewrite L. clear L.
  split.
  - unfold load_model. destruct (cache p) as [c|]; [simpl; lia|].
    destruct a as [|e|e|m]; unfold load_model_body, handler;
      try destruct (caught e); simpl; lia.
  - unfold predict. pose proof (load_model_calls a p) as C.
    destruct (load_model a p) as [[[m|]|e] p1]; simpl in *; lia.
Qed.

Lemma main_cost (clicked : bool) (a : Artifact) (s : Session)
      (p q : Process) (r : result (list notice)) :
  main clicked a s p = Some (r, q) ->
  if clicked
  then (opens q <= S (opens p))%nat /\ (calls q <= S (calls p))%nat
  else q = p.
Proof.
  unfold main. destruct clicked.
  - unfold assess. destruct (feature_list s) as [fl|]; [|discriminate].
    pose proof (predict_cost a fl p) as K.
    destruct (predict a fl p) as [r1 p1]. intros H. inversion H. subst.
    exact K.
  - intros H. now inversion H.
Qed.

(** The file is opened and the model is asked only on a press of the
    button, at most once per press: after any number of runs of the page,
    neither the opens nor the inference calls made exceed the number of
    runs with the button pressed, and runs without a press leave the
    process as it was. *)
Theorem work_on_click_only (rs : list (bool * Artifact * Session))
        (p q : Process) :
  reruns rs p = Some q ->
  (opens q <= opens p + clicks rs)%nat /\
  (calls q <= calls p + clicks rs)%nat /\
  (clicks rs = 0%nat -> q = p).
Proof.
  revert p. induction rs as [|[[clicked a] s] rest IH]; intros p H.
  - simpl in H. inversion H. unfold clicks. simpl. repeat split; lia.
  - simpl in H. destruct (main clicked a s p) as [[r p1]|] eqn:M;
      [|discriminate H].
    apply main_cost in M. destruct (IH p1 H) as [O [C Z]].
    unfold clicks in *. simpl. destruct clicked; simpl.
    + destruct M as [M1 M2]. repeat split; try lia.
    + subst p1. repeat split; try lia. exact Z.
Qed.

Lemma work_on_click_only_browsing :
  reruns [(false, Pickled always_one, default_session);
          (false, Absent, example_session)] init = Some init /\
  opens init = 0%nat.
Proof.
  split; [reflexivity|].
  destruct (work_on_click_only
              [(false, Pickled always_one, default_session);
               (false, Absent, example_session)] init init eq_refl)
    as [O _].
  unfold clicks in O. simpl in O. simpl. lia.
Defined.
